(** * forticare_register_units: the FortiCare registration adapter

    A shallow embedding of [library/forticare_register_units.py] and the
    properties of its payload construction and of its outcome mapping.

    The adapter is dynamically typed Python: its input is the dictionary
    [module.params], the payload is a dictionary handed to [requests.post],
    and the response body is whatever [json.loads] returns.  The embedding
    keeps that shape: Python values are the inductive [pyval], dictionaries
    are [gmap string pyval], and Python exceptions are the [Raise] side of
    the result type [res]. *)

From Stdlib Require Import ZArith SpecFloat.
From stdpp Require Import base gmap strings list fin_maps.

Open Scope string_scope.
Open Scope Z_scope.

(** ** Python values and exceptions *)

(** The values that playbook input and [json.loads] produce: [None],
    booleans, integers, floats, strings, lists and string-keyed
    dictionaries.  Floats are IEEE values in the Standard Library's
    specification format. *)
#[warnings="-register-all"]
Inductive pyval : Type :=
  | PNone
  | PBool (b : bool)
  | PInt (n : Z)
  | PFloat (f : spec_float)
  | PStr (s : string)
  | PList (l : list pyval)
  | PDict (d : gmap string pyval).

(** The exceptions the function can meet outside its [try] block. *)
Inductive pyexc : Type :=
  | KeyError (key : string)
  | TypeError
  | JSONDecodeError.

(** A computation that returns a value or raises. *)
Inductive res (A : Type) : Type :=
  | Ret (a : A)
  | Raise (e : pyexc).
Arguments Ret {A} a.
Arguments Raise {A} e.

#[global] Instance res_ret : MRet res := @Ret.
#[global] Instance res_bind : MBind res := λ A B f m,
  match m with
  | Ret a => f a
  | Raise e => Raise e
  end.

Definition is_zero_float (f : spec_float) : bool :=
  match f with
  | S754_zero _ => true
  | _ => false
  end.

(** Python truth value testing ([if v], [v and ...]). *)
Definition truthy (v : pyval) : bool :=
  match v with
  | PNone => false
  | PBool b => b
  | PInt n => negb (n =? 0)
  | PFloat f => negb (is_zero_float f)
  | PStr s => negb (String.eqb s "")
  | PList l => match l with [] => false | _ :: _ => true end
  | PDict d => match map_to_list d with [] => false | _ :: _ => true end
  end.

(** [v != 0]: Python compares numbers by value across [int], [bool] and
    [float] ([False == 0] and [0.0 == 0] hold); a value of any other type
    differs from [0]. *)
Definition ne_zero (v : pyval) : bool :=
  match v with
  | PInt n => negb (n =? 0)
  | PBool b => b
  | PFloat f => negb (is_zero_float f)
  | PNone | PStr _ | PList _ | PDict _ => true
  end.

(** [v[key]] for a string key: a dictionary looks the key up and raises
    [KeyError] when it is missing; every other value raises [TypeError]
    (lists and strings want integer indices, the rest is not
    subscriptable). *)
Definition getitem (v : pyval) (key : string) : res pyval :=
  match v with
  | PDict d =>
      match d !! key with
      | Some x => Ret x
      | None => Raise (KeyError key)
      end
  | _ => Raise TypeError
  end.

(** [for x in v]: the elements a [for] loop visits.  A list yields its
    items, a string its one-character strings, a dictionary its keys;
    nothing else is iterable. *)
Definition py_iter (v : pyval) : res (list pyval) :=
  match v with
  | PList l => Ret l
  | PStr s => Ret ((λ c, PStr (String c EmptyString)) <$> String.list_ascii_of_string s)
  | PDict d => Ret ((λ kv : string * pyval, PStr kv.1) <$> map_to_list d)
  | _ => Raise TypeError
  end.

(** ** Payload construction (lines 122-142) *)

(** The pattern [if k in src and src[k]: dst[K] = src[k]]. *)
Definition set_if_truthy (src : gmap string pyval) (k K : string)
    (dst : gmap string pyval) : gmap string pyval :=
  match src !! k with
  | Some v => if truthy v then <[K := v]> dst else dst
  | None => dst
  end.

(** One iteration of the loop body, lines 128-140.  The first thing the
    body does is [unit['serial_number']], which raises [TypeError] on
    every value that is not a dictionary and [KeyError] on a dictionary
    without the key. *)
Definition unit_data_of (unit : pyval) : res (gmap string pyval) :=
  match unit with
  | PDict unit =>
      match unit !! "serial_number" with
      | Some sn =>
          let unit_data : gmap string pyval := {[ "Serial_Number" := sn ]} in
          let unit_data := set_if_truthy unit "contract_number" "Contract_Number" unit_data in
          let unit_data := set_if_truthy unit "description" "Description" unit_data in
          let unit_data := set_if_truthy unit "asset_group_ids" "Asset_Group_IDS" unit_data in
          let unit_data := set_if_truthy unit "replaced_serial_number" "Replaced_Serial_Number" unit_data in
          let unit_data := set_if_truthy unit "additional_info" "Additional_Info" unit_data in
          let unit_data := set_if_truthy unit "is_government" "Is_Government" unit_data in
          Ret unit_data
      | None => Raise (KeyError "serial_number")
      end
  | _ => Raise TypeError
  end.

(** The loop of lines 127-142; [acc] is the list under
    [body_data['RegistrationUnits']], to which each iteration appends. *)
Fixpoint registration_units_loop (units : list pyval) (acc : list pyval)
    : res (list pyval) :=
  match units with
  | [] => Ret acc
  | unit :: units =>
      unit_data ← unit_data_of unit;
      registration_units_loop units (acc ++ [PDict unit_data])
  end.

(** Lines 122-142: the dictionary sent as the request body. *)
Definition body_data_of (data : gmap string pyval) : res (gmap string pyval) :=
  token ← getitem (PDict data) "token";
  let body_data : gmap string pyval := {[ "Token" := token ]} in
  let body_data := set_if_truthy data "version" "Version" body_data in
  let body_data := <[ "RegistrationUnits" := PList [] ]> body_data in
  registration_units ← getitem (PDict data) "registration_units";
  units ← py_iter registration_units;
  registration_units ← registration_units_loop units [];
  Ret (<[ "RegistrationUnits" := PList registration_units ]> body_data).

(** ** The transport (lines 144-156) *)

(** The arguments of the one call [requests.post(url, json=body_data,
    timeout=10, verify=True)]. *)
Record post_request : Type := {
  url : string;
  json : gmap string pyval;
  timeout : Z;
  verify : bool
}.

(** A [requests.Response] as far as the function looks at it: the status
    code, the reason phrase, and [loads_content], the outcome of
    [json.loads(r.content)] on the body the server sent (the parsed value,
    or the exception [json.loads] raises on it). *)
Record Response : Type := {
  status_code : Z;
  reason : string;
  loads_content : res pyval
}.

(** The truth value of a response.  [requests] defines
    [Response.__bool__] as [Response.ok], which is false exactly when
    [raise_for_status] would raise: for the status codes 400 to 599. *)
Definition ok (r : Response) : bool :=
  negb ((400 <=? status_code r) && (status_code r <? 600)).

(** ['name' in dir(r)]: every response object has the three attributes
    the function asks for. *)
Definition in_dir (name : string) (r : Response) : bool :=
  bool_decide (name ∈ ["content"; "reason"; "status_code"]).

(** What the [try] block around [requests.post] observes: a
    [requests.exceptions.Timeout], any other [Exception] (with
    [str(e.__traceback__)] and [traceback.format_exc()] as the handler
    reads them), or a response. *)
Inductive post_outcome : Type :=
  | Timeout
  | Failure (tb : string) (format_exc : string)
  | Received (r : Response).

Definition REST_RegisterUnits : string :=
  "https://support.fortinet.com/ES/FCWS_RegistrationService.svc/REST/REST_RegisterUnits".

Definition post_of (body_data : gmap string pyval) : post_request :=
  {| url := REST_RegisterUnits; json := body_data; timeout := 10; verify := true |}.

(** ** Outcome mapping (lines 149-165) *)

(** Lines 158-165, once a response [r] is there.  The returned triple is
    [(is_error, changed, result)], the way [main] unpacks it. *)
Definition response_outcome (r : Response)
    : res (bool * bool * gmap string pyval) :=
  content ← (if ok r && in_dir "content" r then loads_content r else Ret PNone);
  let result : gmap string pyval :=
    {[ "status_code" :=
         if ok r && in_dir "status_code" r then PInt (status_code r) else PNone;
       "reason" :=
         if ok r && in_dir "reason" r then PStr (reason r) else PNone;
       "content" := content ]} in
  success ←
    (if truthy content then
       if negb (status_code r =? 200) then Ret true
       else (status ← getitem content "Status"; Ret (ne_zero status))
     else Ret true);
  Ret (success, negb success, result).

(** Lines 149-165: the two handlers and the response path. *)
Definition post_outcome_result (o : post_outcome)
    : res (bool * bool * gmap string pyval) :=
  match o with
  | Timeout =>
      Ret (true, false,
           {[ "status_code" := PNone;
              "reason" := PStr "Timeout contacting FortiCare server";
              "content" := PNone ]})
  | Failure tb format_exc =>
      Ret (true, false,
           {[ "status_code" := PNone;
              "reason" := PStr "General exception when running POST on FortiCare server";
              "content" := PStr (tb ++ format_exc) ]})
  | Received r => response_outcome r
  end.

Section Adapter.

(** The network: [requests_post n req] is what the [n]-th call of
    [requests.post] of the run observes when it sends [req]. *)
Variable requests_post : nat → post_request → post_outcome.

(** The function itself.  [sent] is the log of the requests issued so
    far; the function returns its outcome and the extended log. *)
Definition forticare_register_units (data : gmap string pyval)
    (sent : list post_request)
    : res (bool * bool * gmap string pyval) * list post_request :=
  match body_data_of data with
  | Raise e => (Raise e, sent)
  | Ret body_data =>
      let r := requests_post (length sent) (post_of body_data) in
      (post_outcome_result r, (sent ++ [post_of body_data])%list)
  end.

End Adapter.

(** ** Well-formed requests *)

(** A unit entry as the data model has it: a dictionary with a
    [serial_number]. *)
Definition wf_unit (unit : pyval) : bool :=
  match unit with
  | PDict u => bool_decide (is_Some (u !! "serial_number"))
  | _ => false
  end.

(** A registration request as the data model has it: a [token], and a
    list of unit entries under [registration_units]. *)
Definition wf_request (data : gmap string pyval) : bool :=
  bool_decide (is_Some (data !! "token")) &&
  match data !! "registration_units" with
  | Some (PList units) => forallb wf_unit units
  | _ => false
  end.

(** The units of a request, and the entries of a payload. *)
Definition units_of (data : gmap string pyval) : list pyval :=
  match data !! "registration_units" with
  | Some (PList units) => units
  | _ => []
  end.

Definition RegistrationUnits_of (body_data : gmap string pyval) : list pyval :=
  match body_data !! "RegistrationUnits" with
  | Some (PList l) => l
  | _ => []
  end.

(** The optional fields of a unit entry with their wire names. *)
Definition optional_fields : list (string * string) :=
  [ ("contract_number", "Contract_Number");
    ("description", "Description");
    ("asset_group_ids", "Asset_Group_IDS");
    ("replaced_serial_number", "Replaced_Serial_Number");
    ("additional_info", "Additional_Info");
    ("is_government", "Is_Government") ].

(** An optional value, kept when it is there and truthy: what
    [set_if_truthy] copies. *)
Definition keep_truthy (o : option pyval) : option pyval :=
  match o with
  | Some v => if truthy v then Some v else None
  | None => None
  end.

(** ** Sample inputs *)

Definition sample_unit : gmap string pyval :=
  {[ "serial_number" := PStr "FMG-3K3407400133";
     "contract_number" := PStr "";
     "description" := PStr "Backup device";
     "asset_group_ids" := PStr "";
     "replaced_serial_number" := PStr "";
     "additional_info" := PStr "10.1.1.1";
     "is_government" := PBool false ]}.

Definition sample_data : gmap string pyval :=
  {[ "token" := PStr "YOUR_TOKEN";
     "version" := PStr "1.0";
     "registration_units" := PList [PDict sample_unit] ]}.

Definition sample_body : gmap string pyval :=
  {[ "Token" := PStr "YOUR_TOKEN";
     "Version" := PStr "1.0";
     "RegistrationUnits" :=
       PList [PDict {[ "Serial_Number" := PStr "FMG-3K3407400133";
                       "Description" := PStr "Backup device";
                       "Additional_Info" := PStr "10.1.1.1" ]}] ]}.

(** ** Sample networks *)

(** A network that answers every request the same way. *)
Definition always (o : post_outcome) : nat → post_request → post_outcome :=
  λ _ _, o.

Definition registered : Response :=
  {| status_code := 200; reason := "OK";
     loads_content :=
       Ret (PDict {[ "Status" := PInt 0; "Message" := PStr "Success" ]}) |}.

Definition already_registered : Response :=
  {| status_code := 200; reason := "OK";
     loads_content :=
       Ret (PDict {[ "Status" := PInt 1; "Error" := PStr "Already Registered" ]}) |}.

(** A 500 answer whose body is an error page, not JSON. *)
Definition server_error : Response :=
  {| status_code := 500; reason := "Internal Server Error";
     loads_content := Raise JSONDecodeError |}.

(** A 200 answer whose body is not JSON. *)
Definition not_json : Response :=
  {| status_code := 200; reason := "OK"; loads_content := Raise JSONDecodeError |}.

(** A 200 answer whose body is a JSON object without [Status]. *)
Definition no_Status : Response :=
  {| status_code := 200; reason := "OK";
     loads_content := Ret (PDict {[ "Message" := PStr "Invalid token" ]}) |}.

(** A 200 answer whose body is the empty JSON object. *)
Definition empty_object : Response :=
  {| status_code := 200; reason := "OK"; loads_content := Ret (PDict ∅) |}.

(** ** The entry point (lines 168-194) *)

(** The sub-options that [main] declares for one unit entry. *)
Definition registration_units_options : gmap string pyval :=
  {[ "serial_number" := PDict {[ "required" := PBool true; "type" := PStr "str" ]};
     "contract_number" := PDict {[ "required" := PBool false; "type" := PStr "str" ]};
     "description" := PDict {[ "required" := PBool false; "type" := PStr "str" ]};
     "asset_group_ids" := PDict {[ "required" := PBool false; "type" := PStr "list" ]};
     "replaced_serial_number" :=
       PDict {[ "required" := PBool false; "type" := PStr "str" ]};
     "additional_info" := PDict {[ "required" := PBool false; "type" := PStr "str" ]};
     "is_government" :=
       PDict {[ "required" := PBool false; "type" := PStr "bool";
                "default" := PBool false ]} ]}.

(** The argument specification [fields] of lines 169-185. *)
Definition fields : gmap string pyval :=
  {[ "token" :=
       PDict {[ "required" := PBool true; "type" := PStr "str";
                "no_log" := PBool true ]};
     "version" := PDict {[ "required" := PBool false; "type" := PStr "str" ]};
     "registration_units" :=
       PDict {[ "required" := PBool true; "type" := PStr "list";
                "options" := PDict registration_units_options ]} ]}.

(** How the module ends: [module.exit_json(changed=..., meta=...)] or
    [module.fail_json(msg=..., meta=...)]. *)
Inductive module_exit : Type :=
  | exit_json (changed : bool) (meta : gmap string pyval)
  | fail_json (msg : string) (meta : gmap string pyval).

(** Lines 189-194 of [main].  [params] is [module.params], the parameter
    dictionary that [AnsibleModule(argument_spec=fields, ...)] hands over;
    an exception of the function is not handled and leaves [main]. *)
Definition main (requests_post : nat → post_request → post_outcome)
    (params : gmap string pyval) (sent : list post_request)
    : res module_exit * list post_request :=
  match forticare_register_units requests_post params sent with
  | (Ret (is_error, has_changed, result), sent) =>
      if negb is_error then (Ret (exit_json has_changed result), sent)
      else (Ret (fail_json "Error in repo" result), sent)
  | (Raise e, sent) => (Raise e, sent)
  end.

(** The keys of the wire format and of the result. *)
Definition body_keys : gset string :=
  {[ "Token"; "Version"; "RegistrationUnits" ]}.

Definition unit_keys : gset string :=
  {[ "Serial_Number"; "Contract_Number"; "Description"; "Asset_Group_IDS";
     "Replaced_Serial_Number"; "Additional_Info"; "Is_Government" ]}.

Definition result_keys : gset string :=
  {[ "status_code"; "reason"; "content" ]}.

(** A 404 answer with a JSON error body. *)
Definition not_found : Response :=
  {| status_code := 404; reason := "Not Found";
     loads_content := Ret (PDict {[ "Message" := PStr "No such service" ]}) |}.

(** A 202 answer with a JSON body that reports [Status] 0. *)
Definition accepted : Response :=
  {| status_code := 202; reason := "Accepted";
     loads_content := Ret (PDict {[ "Status" := PInt 0 ]}) |}.

(** A request with a token and no units. *)
Definition no_units_data : gmap string pyval :=
  {[ "token" := PStr "YOUR_TOKEN"; "registration_units" := PList [] ]}.

(** A request whose second unit has no [serial_number]. *)
Definition bad_unit_data : gmap string pyval :=
  {[ "token" := PStr "YOUR_TOKEN";
     "registration_units" :=
       PList [PDict sample_unit; PDict {[ "description" := PStr "spare" ]}] ]}.

(** ** The samples, run *)

Example sample_body_data : body_data_of sample_data = Ret sample_body.
Proof. vm_compute. reflexivity. Qed.

Example registered_outcome :
  forticare_register_units (always (Received registered)) sample_data [] =
  (Ret (false, true,
        {[ "status_code" := PInt 200; "reason" := PStr "OK";
           "content" := PDict {[ "Status" := PInt 0; "Message" := PStr "Success" ]} ]}),
   [post_of sample_body]).
Proof. vm_compute. reflexivity. Qed.

Example already_registered_outcome :
  forticare_register_units (always (Received already_registered)) sample_data [] =
  (Ret (true, false,
        {[ "status_code" := PInt 200; "reason" := PStr "OK";
           "content" :=
             PDict {[ "Status" := PInt 1; "Error" := PStr "Already Registered" ]} ]}),
   [post_of sample_body]).
Proof. vm_compute. reflexivity. Qed.

(** ** Lemmas on the payload construction *)

Lemma keep_truthy_Some o v :
  keep_truthy o = Some v ↔ o = Some v ∧ truthy v = true.
Proof.
  unfold keep_truthy. destruct o as [w|]; [|intuition congruence].
  destruct (truthy w) eqn:Hw; intuition congruence.
Qed.

Lemma keep_truthy_None o :
  keep_truthy o = None ↔ o = None ∨ ∃ v, o = Some v ∧ truthy v = false.
Proof.
  unfold keep_truthy. destruct o as [w|]; [|split; [by left|done]].
  destruct (truthy w) eqn:Hw; split; try done.
  - intros [?|(v & ? & ?)]; congruence.
  - intros _. right. by exists w.
Qed.

Lemma lookup_set_if_truthy src k K dst K' :
  set_if_truthy src k K dst !! K' =
  if decide (K = K') then
    match keep_truthy (src !! k) with Some v => Some v | None => dst !! K' end
  else dst !! K'.
Proof.
  unfold set_if_truthy, keep_truthy.
  destruct (src !! k) as [v|]; [destruct (truthy v)|];
    rewrite ?lookup_insert; repeat case_decide; congruence.
Qed.

Lemma truthy_PStr s : truthy (PStr s) = true ↔ s ≠ "".
Proof.
  simpl. rewrite negb_true_iff. destruct (String.eqb_spec s ""); intuition congruence.
Qed.

Lemma wf_unit_inv unit :
  wf_unit unit = true → ∃ u sn, unit = PDict u ∧ u !! "serial_number" = Some sn.
Proof.
  destruct unit as [| | | | | |u]; simpl; try discriminate.
  intros Hu. apply bool_decide_eq_true in Hu as [sn Hsn]. eauto.
Qed.

Lemma unit_data_of_total unit :
  wf_unit unit = true → ∃ unit_data, unit_data_of unit = Ret unit_data.
Proof.
  intros (u & sn & -> & Hsn)%wf_unit_inv. simpl. rewrite Hsn. eauto.
Qed.

(** What one payload entry holds, key by key. *)
Lemma unit_data_of_lookup u unit_data :
  unit_data_of (PDict u) = Ret unit_data →
  unit_data !! "Serial_Number" = u !! "serial_number" ∧
  ∀ k K, (k, K) ∈ optional_fields → unit_data !! K = keep_truthy (u !! k).
Proof.
  simpl. destruct (u !! "serial_number") as [sn|] eqn:Hsn; [|discriminate].
  intros [= <-]. split.
  - rewrite !lookup_set_if_truthy. repeat (case_decide; [discriminate|]).
    by rewrite lookup_singleton_eq.
  - intros k K HkK. unfold optional_fields in HkK.
    repeat (apply elem_of_cons in HkK as [[= -> ->]|HkK];
      [ rewrite !lookup_set_if_truthy; repeat (case_decide; try discriminate);
        try congruence;
        destruct (keep_truthy _); [done|]; by rewrite lookup_singleton_ne | ]).
    by apply elem_of_nil in HkK.
Qed.

(** The loop appends one entry per unit, in order. *)
Lemma registration_units_loop_inv units : ∀ acc l,
  registration_units_loop units acc = Ret l →
  ∃ entries,
    l = (acc ++ (PDict <$> entries))%list ∧
    Forall2 (λ unit unit_data, unit_data_of unit = Ret unit_data) units entries.
Proof.
  induction units as [|unit units IH]; intros acc l; simpl.
  - intros [= <-]. exists []. by rewrite app_nil_r.
  - destruct (unit_data_of unit) as [unit_data|e] eqn:Hu; simpl; [|discriminate].
    intros (entries & -> & Hall)%IH. exists (unit_data :: entries). split.
    + by rewrite <- app_assoc.
    + by constructor.
Qed.

Lemma registration_units_loop_total units : ∀ acc,
  forallb wf_unit units = true →
  ∃ l, registration_units_loop units acc = Ret l.
Proof.
  induction units as [|unit units IH]; intros acc; simpl; [eauto|].
  intros [Hu Hus]%andb_true_iff.
  destruct (unit_data_of_total unit Hu) as [unit_data ->]. simpl. by apply IH.
Qed.

(** The shape of the payload of a well-formed request. *)
Lemma body_data_of_wf data :
  wf_request data = true →
  ∃ token units entries,
    data !! "token" = Some token ∧
    data !! "registration_units" = Some (PList units) ∧
    Forall2 (λ unit unit_data, unit_data_of unit = Ret unit_data) units entries ∧
    body_data_of data =
      Ret (<[ "RegistrationUnits" := PList (PDict <$> entries) ]>
             (<[ "RegistrationUnits" := PList [] ]>
                (set_if_truthy data "version" "Version" {[ "Token" := token ]}))).
Proof.
  unfold wf_request. intros [Htok Hru]%andb_true_iff.
  apply bool_decide_eq_true in Htok as [token Htok].
  destruct (data !! "registration_units") as [[| | | | |units|]|] eqn:Hd;
    try discriminate.
  destruct (registration_units_loop_total units [] Hru) as [l Hl].
  destruct (registration_units_loop_inv units [] l Hl) as (entries & -> & Hall).
  exists token, units, entries. repeat split; try done.
  unfold body_data_of. simpl. rewrite Htok. simpl. rewrite Hd. simpl.
  rewrite Hl. done.
Qed.

(** ** Properties of the payload *)

(** C9: the payload of a well-formed request is built, holds [Token] with
    the request's token, and holds [Version] exactly when the request has
    a [version] that is truthy, with that value; for a string [version]
    this is exactly when the string is not empty. *)
Theorem payload_Token_Version (data : gmap string pyval) :
  wf_request data = true →
  ∃ body_data,
    body_data_of data = Ret body_data ∧
    is_Some (body_data !! "Token") ∧
    body_data !! "Token" = data !! "token" ∧
    (∀ v, body_data !! "Version" = Some v ↔
          data !! "version" = Some v ∧ truthy v = true) ∧
    (data !! "version" = None → body_data !! "Version" = None) ∧
    (∀ s, data !! "version" = Some (PStr s) →
          (is_Some (body_data !! "Version") ↔ s ≠ "")).
Proof.
  intros (token & units & entries & Htok & _ & _ & Hbody)%body_data_of_wf.
  eexists. split; [exact Hbody|].
  assert (HT : ∀ m : gmap string pyval,
    (<[ "RegistrationUnits" := PList (PDict <$> entries) ]>
       (<[ "RegistrationUnits" := PList [] ]>
          (set_if_truthy data "version" "Version" m))) !! "Token" = m !! "Token").
  { intros m. rewrite !lookup_insert_ne by done.
    rewrite lookup_set_if_truthy. by case_decide. }
  assert (HV :
    (<[ "RegistrationUnits" := PList (PDict <$> entries) ]>
       (<[ "RegistrationUnits" := PList [] ]>
          (set_if_truthy data "version" "Version" {[ "Token" := token ]})))
      !! "Version" = keep_truthy (data !! "version")).
  { rewrite !lookup_insert_ne by done. rewrite lookup_set_if_truthy.
    case_decide; [|done]. destruct (keep_truthy _); [done|].
    by rewrite lookup_singleton_ne. }
  rewrite HT, HV, lookup_singleton_eq, Htok. split_and!; [eauto|done|..].
  - intros v. apply keep_truthy_Some.
  - by intros ->.
  - intros s Hs. rewrite Hs. split.
    + intros [v (Hv & Ht)%keep_truthy_Some]. injection Hv as <-.
      by apply truthy_PStr.
    + intros Hne. exists (PStr s). apply keep_truthy_Some. split; [done|].
      by apply truthy_PStr.
Qed.

Lemma payload_Token_Version_witness :
  wf_request sample_data = true ∧
  ∃ body_data,
    body_data_of sample_data = Ret body_data ∧
    body_data !! "Token" = Some (PStr "YOUR_TOKEN") ∧
    body_data !! "Version" = Some (PStr "1.0").
Proof.
  split; [reflexivity|].
  destruct (payload_Token_Version sample_data) as (body & Hb & _ & HT & HV & _);
    [reflexivity|].
  exists body. split; [exact Hb|]. split.
  - rewrite HT. reflexivity.
  - apply HV. split; reflexivity.
Defined.

(** C7: the payload of a well-formed request holds, under
    [RegistrationUnits], a list with one entry per unit of the request,
    the entry at each position built from the unit at that position, and
    every entry maps [Serial_Number] to that unit's [serial_number]. *)
Theorem payload_RegistrationUnits (data : gmap string pyval) :
  wf_request data = true →
  ∃ body_data,
    body_data_of data = Ret body_data ∧
    body_data !! "RegistrationUnits" = Some (PList (RegistrationUnits_of body_data)) ∧
    length (RegistrationUnits_of body_data) = length (units_of data) ∧
    ∀ (i : nat) unit, units_of data !! i = Some unit →
      ∃ unit_data serial_number,
        RegistrationUnits_of body_data !! i = Some (PDict unit_data) ∧
        unit_data_of unit = Ret unit_data ∧
        getitem unit "serial_number" = Ret serial_number ∧
        unit_data !! "Serial_Number" = Some serial_number.
Proof.
  intros (token & units & entries & _ & Hru & Hall & Hbody)%body_data_of_wf.
  eexists. split; [exact Hbody|].
  unfold RegistrationUnits_of, units_of. rewrite Hru, lookup_insert_eq.
  split_and!; [done|..].
  - rewrite length_fmap. symmetry. by eapply Forall2_length.
  - intros i unit Hi.
    destruct (Forall2_lookup_l _ _ _ _ _ Hall Hi) as (unit_data & Hi' & Hud).
    destruct unit as [| | | | | |u]; try discriminate.
    destruct (unit_data_of_lookup u unit_data Hud) as [Hsn _].
    simpl in Hud |- *.
    destruct (u !! "serial_number") as [sn|] eqn:Hu; [|discriminate].
    exists unit_data, sn. split_and!; try done.
    by rewrite list_lookup_fmap, Hi'.
Qed.

Lemma payload_RegistrationUnits_witness :
  wf_request sample_data = true ∧
  ∃ body_data,
    body_data_of sample_data = Ret body_data ∧
    length (RegistrationUnits_of body_data) = 1%nat ∧
    ∃ unit_data,
      RegistrationUnits_of body_data !! 0%nat = Some (PDict unit_data) ∧
      unit_data !! "Serial_Number" = Some (PStr "FMG-3K3407400133").
Proof.
  split; [reflexivity|].
  destruct (payload_RegistrationUnits sample_data)
    as (body & Hb & _ & Hlen & Hat); [reflexivity|].
  exists body. split; [exact Hb|]. split; [exact Hlen|].
  destruct (Hat 0%nat (PDict sample_unit)) as (unit_data & sn & Hi & _ & Hsn & Hud);
    [reflexivity|].
  exists unit_data. split; [exact Hi|].
  injection Hsn as <-. exact Hud.
Defined.

(** C3: in the payload of a well-formed request, the entry of each unit
    omits the wire key of an optional field exactly when the unit lacks
    the field or holds a falsy value for it, and holds the wire key exactly
    when the unit has a truthy value for the field, then with that value
    unchanged. *)
Theorem payload_optional_fields (data : gmap string pyval) :
  wf_request data = true →
  ∃ body_data,
    body_data_of data = Ret body_data ∧
    ∀ (i : nat) u, units_of data !! i = Some (PDict u) →
      ∃ unit_data,
        RegistrationUnits_of body_data !! i = Some (PDict unit_data) ∧
        ∀ k K, (k, K) ∈ optional_fields →
          (unit_data !! K = None ↔
             u !! k = None ∨ ∃ v, u !! k = Some v ∧ truthy v = false) ∧
          (∀ v, unit_data !! K = Some v ↔ u !! k = Some v ∧ truthy v = true).
Proof.
  intros (token & units & entries & _ & Hru & Hall & Hbody)%body_data_of_wf.
  eexists. split; [exact Hbody|].
  unfold RegistrationUnits_of, units_of. rewrite Hru, lookup_insert_eq.
  intros i u Hi.
  destruct (Forall2_lookup_l _ _ _ _ _ Hall Hi) as (unit_data & Hi' & Hud).
  exists unit_data. split; [by rewrite list_lookup_fmap, Hi'|].
  intros k K HkK.
  destruct (unit_data_of_lookup u unit_data Hud) as [_ Hopt].
  rewrite (Hopt k K HkK). split.
  - apply keep_truthy_None.
  - intros v. apply keep_truthy_Some.
Qed.

Lemma payload_optional_fields_witness :
  wf_request sample_data = true ∧
  ∃ body_data,
    body_data_of sample_data = Ret body_data ∧
    ∃ unit_data,
      RegistrationUnits_of body_data !! 0%nat = Some (PDict unit_data) ∧
      unit_data !! "Description" = Some (PStr "Backup device") ∧
      unit_data !! "Contract_Number" = None ∧
      unit_data !! "Is_Government" = None.
Proof.
  split; [reflexivity|].
  destruct (payload_optional_fields sample_data) as (body & Hb & Hat);
    [reflexivity|].
  exists body. split; [exact Hb|].
  destruct (Hat 0%nat sample_unit) as (unit_data & Hi & Hopt); [reflexivity|].
  exists unit_data. split; [exact Hi|]. split_and!.
  - apply (Hopt "description" "Description"); [|split; reflexivity].
    unfold optional_fields. apply list_elem_of_lookup_2 with 1%nat. reflexivity.
  - apply (Hopt "contract_number" "Contract_Number").
    + unfold optional_fields. apply list_elem_of_lookup_2 with 0%nat. reflexivity.
    + right. exists (PStr ""). split; reflexivity.
  - apply (Hopt "is_government" "Is_Government").
    + unfold optional_fields. apply list_elem_of_lookup_2 with 5%nat. reflexivity.
    + right. exists (PBool false). split; reflexivity.
Defined.

(** ** Lemmas on the outcome mapping *)

Lemma ok_200 r : status_code r = 200 → ok r = true.
Proof. unfold ok. by intros ->. Qed.

Lemma ok_500 r : status_code r = 500 → ok r = false.
Proof. unfold ok. by intros ->. Qed.

(** How a run splits into the payload, the one request and the mapping
    of what comes back. *)
Lemma forticare_register_units_post requests_post data sent body_data :
  body_data_of data = Ret body_data →
  forticare_register_units requests_post data sent =
    (post_outcome_result (requests_post (length sent) (post_of body_data)),
     (sent ++ [post_of body_data])%list).
Proof. unfold forticare_register_units. by intros ->. Qed.

Lemma response_outcome_changed r is_error changed result :
  response_outcome r = Ret (is_error, changed, result) → changed = negb is_error.
Proof.
  unfold response_outcome.
  destruct (ok r && in_dir "content" r); [destruct (loads_content r) as [v|]|];
    simpl; try discriminate.
  - destruct (truthy v); [destruct (negb (status_code r =? 200));
      [|destruct (getitem v "Status")]|]; simpl; try discriminate;
      by intros [= <- <- _].
  - by intros [= <- <- _].
Qed.

Lemma post_outcome_result_changed o is_error changed result :
  post_outcome_result o = Ret (is_error, changed, result) → changed = negb is_error.
Proof.
  destruct o as [| |r]; simpl.
  - by intros [= <- <- _].
  - by intros [= <- <- _].
  - apply response_outcome_changed.
Qed.

(** When a response is reported as a success: status 200 and a body that
    parses to a dictionary whose [Status] compares equal to [0]. *)
Lemma response_outcome_success r result :
  response_outcome r = Ret (false, true, result) ↔
  status_code r = 200 ∧
  ∃ d status,
    loads_content r = Ret (PDict d) ∧ d !! "Status" = Some status ∧
    ne_zero status = false ∧
    result = {[ "status_code" := PInt 200; "reason" := PStr (reason r);
                "content" := PDict d ]}.
Proof.
  unfold response_outcome. split.
  - destruct (ok r) eqn:Hok; simpl; [|discriminate].
    destruct (loads_content r) as [v|]; simpl; [|discriminate].
    destruct (truthy v) eqn:Hv; [|discriminate].
    destruct (status_code r =? 200) eqn:Hs; simpl; [|discriminate].
    apply Z.eqb_eq in Hs.
    destruct v as [| | | | | |d]; simpl; try discriminate.
    destruct (d !! "Status") as [status|] eqn:Hst; simpl; [|discriminate].
    destruct (ne_zero status) eqn:Hz; simpl; [discriminate|].
    intros [= <-]. rewrite Hs. eauto 10.
  - intros (Hs & d & status & Hl & Hst & Hz & ->).
    rewrite (ok_200 r Hs), Hl, Hs. simpl.
    assert (Ht : truthy (PDict d) = true).
    { simpl. destruct (map_to_list d) eqn:Hd; [|done].
      apply map_to_list_empty_iff in Hd. subst d. by rewrite lookup_empty in Hst. }
    simpl in Ht. rewrite Ht, Hst. simpl. by rewrite Hz.
Qed.

(** When the response path raises instead of returning: the status code
    is outside 400-599 and either [json.loads] raises on the body, or the
    status is 200 and [content['Status']] raises on the truthy body. *)
Lemma response_outcome_raises r e :
  response_outcome r = Raise e ↔
  ok r = true ∧
  (loads_content r = Raise e ∨
   ∃ v, loads_content r = Ret v ∧ truthy v = true ∧ status_code r = 200 ∧
        getitem v "Status" = Raise e).
Proof.
  unfold response_outcome. split.
  - destruct (ok r) eqn:Hok; simpl; [|discriminate].
    destruct (loads_content r) as [v|e']; simpl.
    + destruct (truthy v) eqn:Hv; [|discriminate].
      destruct (status_code r =? 200) eqn:Hs; simpl; [|discriminate].
      apply Z.eqb_eq in Hs.
      destruct (getitem v "Status") eqn:Hg; simpl; [discriminate|].
      intros [= <-]. eauto 10.
    + intros [= <-]. eauto.
  - intros [-> [-> | (v & -> & Hv & Hs & Hg)]]; simpl; [done|].
    rewrite Hv, Hs, Hg. done.
Qed.

(** ** Properties of the outcome *)

(** C4: when the one POST times out, the function returns the error
    outcome with [status_code] and [content] [None] and the fixed reason,
    and the run has issued that one request and no other. *)
Theorem timeout_outcome requests_post data sent body_data :
  body_data_of data = Ret body_data →
  requests_post (length sent) (post_of body_data) = Timeout →
  forticare_register_units requests_post data sent =
    (Ret (true, false,
          {[ "status_code" := PNone;
             "reason" := PStr "Timeout contacting FortiCare server";
             "content" := PNone ]}),
     (sent ++ [post_of body_data])%list).
Proof.
  intros Hbody Hpost.
  rewrite (forticare_register_units_post _ _ _ _ Hbody), Hpost. reflexivity.
Qed.

Lemma timeout_outcome_witness :
  forticare_register_units (always Timeout) sample_data [] =
    (Ret (true, false,
          {[ "status_code" := PNone;
             "reason" := PStr "Timeout contacting FortiCare server";
             "content" := PNone ]}),
     [post_of sample_body]).
Proof.
  apply (timeout_outcome (always Timeout) sample_data [] sample_body);
    vm_compute; reflexivity.
Defined.

(** C6: when the one POST raises any other exception, the function
    returns the error outcome with [status_code] [None], the fixed reason,
    and as [content] the string made of the exception's traceback object
    and the formatted traceback. *)
Theorem failure_outcome requests_post data sent body_data tb format_exc :
  body_data_of data = Ret body_data →
  requests_post (length sent) (post_of body_data) = Failure tb format_exc →
  forticare_register_units requests_post data sent =
    (Ret (true, false,
          {[ "status_code" := PNone;
             "reason" := PStr "General exception when running POST on FortiCare server";
             "content" := PStr (tb ++ format_exc) ]}),
     (sent ++ [post_of body_data])%list).
Proof.
  intros Hbody Hpost.
  rewrite (forticare_register_units_post _ _ _ _ Hbody), Hpost. reflexivity.
Qed.

Lemma failure_outcome_witness :
  forticare_register_units
    (always (Failure "<traceback object>" "ConnectionError: refused"))
    sample_data [] =
    (Ret (true, false,
          {[ "status_code" := PNone;
             "reason" := PStr "General exception when running POST on FortiCare server";
             "content" := PStr ("<traceback object>" ++ "ConnectionError: refused") ]}),
     [post_of sample_body]).
Proof.
  apply (failure_outcome
           (always (Failure "<traceback object>" "ConnectionError: refused"))
           sample_data [] sample_body "<traceback object>" "ConnectionError: refused");
    vm_compute; reflexivity.
Defined.

(** C5: whenever the function returns, on the timeout path, the
    exception path or the response path, [changed] is the negation of
    [is_error]. *)
Theorem changed_is_not_is_error requests_post data sent is_error changed result sent' :
  forticare_register_units requests_post data sent =
    (Ret (is_error, changed, result), sent') →
  changed = negb is_error.
Proof.
  unfold forticare_register_units.
  destruct (body_data_of data) as [body_data|e]; [|discriminate].
  intros [= Hres _]. by eapply post_outcome_result_changed.
Qed.

Lemma changed_is_not_is_error_witness :
  forticare_register_units (always (Received registered)) sample_data [] =
    (Ret (false, true,
          {[ "status_code" := PInt 200; "reason" := PStr "OK";
             "content" :=
               PDict {[ "Status" := PInt 0; "Message" := PStr "Success" ]} ]}),
     [post_of sample_body]) ∧
  true = negb false.
Proof.
  split; [vm_compute; reflexivity|].
  eapply (changed_is_not_is_error (always (Received registered)) sample_data []
            false true).
  vm_compute. reflexivity.
Defined.

(** C8: a response with status code 500 yields the error outcome,
    whatever its body is; the body is not even parsed. *)
Theorem status_500_is_error requests_post data sent body_data r :
  body_data_of data = Ret body_data →
  requests_post (length sent) (post_of body_data) = Received r →
  status_code r = 500 →
  forticare_register_units requests_post data sent =
    (Ret (true, false,
          {[ "status_code" := PNone; "reason" := PNone; "content" := PNone ]}),
     (sent ++ [post_of body_data])%list).
Proof.
  intros Hbody Hpost Hs.
  rewrite (forticare_register_units_post _ _ _ _ Hbody), Hpost. simpl.
  unfold response_outcome. rewrite (ok_500 r Hs). reflexivity.
Qed.

Lemma status_500_is_error_witness :
  forticare_register_units (always (Received server_error)) sample_data [] =
    (Ret (true, false,
          {[ "status_code" := PNone; "reason" := PNone; "content" := PNone ]}),
     [post_of sample_body]).
Proof.
  apply (status_500_is_error (always (Received server_error)) sample_data []
           sample_body server_error);
    vm_compute; reflexivity.
Defined.

(** C10: a response whose body parses to a falsy value yields
    [is_error = true] and [changed = false], at status 200 as at any
    other status. *)
Theorem falsy_body_is_error requests_post data sent body_data r v :
  body_data_of data = Ret body_data →
  requests_post (length sent) (post_of body_data) = Received r →
  loads_content r = Ret v →
  truthy v = false →
  ∃ result,
    forticare_register_units requests_post data sent =
      (Ret (true, false, result), (sent ++ [post_of body_data])%list).
Proof.
  intros Hbody Hpost Hv Hfalsy.
  rewrite (forticare_register_units_post _ _ _ _ Hbody), Hpost. simpl.
  unfold response_outcome. rewrite Hv.
  destruct (ok r && in_dir "content" r); simpl.
  - rewrite Hfalsy. simpl. eauto.
  - eauto.
Qed.

Lemma falsy_body_is_error_witness :
  ∃ result,
    forticare_register_units (always (Received empty_object)) sample_data [] =
      (Ret (true, false, result), [post_of sample_body]).
Proof.
  apply (falsy_body_is_error (always (Received empty_object)) sample_data []
           sample_body empty_object (PDict ∅));
    vm_compute; reflexivity.
Defined.

(** C1: at a response with status 200 whose body parses to a JSON object
    without [Status], the function returns no outcome at all:
    [content['Status']] raises [KeyError], where the claim promises
    [is_error = true] and [changed = false]. *)
Theorem no_Status_raises :
  forticare_register_units (always (Received no_Status)) sample_data [] =
    (Raise (KeyError "Status"), [post_of sample_body]).
Proof. vm_compute. reflexivity. Qed.

(** C2: at a response with status 200 whose body is not valid JSON, the
    exception of [json.loads] leaves the function: no outcome triple is
    returned. *)
Theorem not_json_raises :
  forticare_register_units (always (Received not_json)) sample_data [] =
    (Raise JSONDecodeError, [post_of sample_body]).
Proof. vm_compute. reflexivity. Qed.

(** ** Further properties of the payload construction *)

(** What a built payload is made of, without assuming a well-formed
    request. *)
Lemma body_data_of_inv data body_data :
  body_data_of data = Ret body_data →
  ∃ token registration_units units entries,
    data !! "token" = Some token ∧
    data !! "registration_units" = Some registration_units ∧
    py_iter registration_units = Ret units ∧
    Forall2 (λ unit unit_data, unit_data_of unit = Ret unit_data) units entries ∧
    body_data =
      <[ "RegistrationUnits" := PList (PDict <$> entries) ]>
        (<[ "RegistrationUnits" := PList [] ]>
           (set_if_truthy data "version" "Version" {[ "Token" := token ]})).
Proof.
  unfold body_data_of. simpl.
  destruct (data !! "token") as [token|]; simpl; [|discriminate].
  destruct (data !! "registration_units") as [ru|]; simpl; [|discriminate].
  destruct (py_iter ru) as [units|] eqn:Hit; simpl; [|discriminate].
  destruct (registration_units_loop units []) as [l|] eqn:Hl; simpl; [|discriminate].
  intros [= <-].
  destruct (registration_units_loop_inv units [] l Hl) as (entries & -> & Hall).
  exists token, ru, units, entries. by split_and!.
Qed.

Lemma registration_units_loop_raises good bad rest e : ∀ acc,
  forallb wf_unit good = true →
  unit_data_of bad = Raise e →
  registration_units_loop (good ++ bad :: rest) acc = Raise e.
Proof.
  induction good as [|unit good IH]; intros acc; simpl.
  - intros _ ->. done.
  - intros [Hu Hgood]%andb_true_iff Hbad.
    destruct (unit_data_of_total unit Hu) as [unit_data ->]. simpl. by apply IH.
Qed.

Lemma unit_data_of_wf unit unit_data :
  unit_data_of unit = Ret unit_data → wf_unit unit = true.
Proof.
  destruct unit as [| | | | | |u]; simpl; try discriminate.
  destruct (u !! "serial_number") eqn:Hu; [|discriminate].
  intros _. apply bool_decide_eq_true. eauto.
Qed.

Lemma Forall2_unit_data_of_wf units entries :
  Forall2 (λ unit unit_data, unit_data_of unit = Ret unit_data) units entries →
  forallb wf_unit units = true.
Proof.
  induction 1 as [|unit unit_data units entries Hu _ IH]; simpl; [done|].
  by rewrite (unit_data_of_wf _ _ Hu), IH.
Qed.

Lemma dom_set_if_truthy src k K dst :
  dom (set_if_truthy src k K dst) ⊆ {[ K ]} ∪ dom dst.
Proof.
  unfold set_if_truthy.
  destruct (src !! k) as [v|]; [destruct (truthy v)|];
    rewrite ?dom_insert_L; set_solver.
Qed.

Lemma dom_set_if_truthy_mono src k K dst :
  dom dst ⊆ dom (set_if_truthy src k K dst).
Proof.
  unfold set_if_truthy.
  destruct (src !! k) as [v|]; [destruct (truthy v)|];
    rewrite ?dom_insert_L; set_solver.
Qed.

(** X1: with the units given as a list, the payload is built exactly for
    the well-formed requests: a [token], and every unit a dictionary with
    a [serial_number]. *)
Theorem payload_built_iff_wf (data : gmap string pyval) units :
  data !! "registration_units" = Some (PList units) →
  (∃ body_data, body_data_of data = Ret body_data) ↔ wf_request data = true.
Proof.
  intros Hru. split.
  - intros [body_data (token & ru & units' & entries & Htok & Hru' & Hit & Hall & _)
      %body_data_of_inv].
    unfold wf_request. rewrite Htok, Hru.
    rewrite Hru in Hru'. injection Hru' as <-. simpl in Hit. injection Hit as <-.
    apply andb_true_iff. split.
    + apply bool_decide_eq_true. eauto.
    + by eapply Forall2_unit_data_of_wf.
  - intros (token & units' & entries & _ & _ & _ & Hbody)%body_data_of_wf. eauto.
Qed.

Lemma payload_built_iff_wf_witness :
  sample_data !! "registration_units" = Some (PList [PDict sample_unit]) ∧
  ∃ body_data, body_data_of sample_data = Ret body_data.
Proof.
  split; [reflexivity|].
  apply (payload_built_iff_wf sample_data [PDict sample_unit]); reflexivity.
Defined.

(** X2: a missing [token] raises [KeyError] for it, and with a [token] a
    missing [registration_units] raises [KeyError] for that; in both
    cases no request is sent. *)
Theorem missing_parameter_raises requests_post (data : gmap string pyval) sent :
  (data !! "token" = None →
   forticare_register_units requests_post data sent =
     (Raise (KeyError "token"), sent)) ∧
  (is_Some (data !! "token") → data !! "registration_units" = None →
   forticare_register_units requests_post data sent =
     (Raise (KeyError "registration_units"), sent)).
Proof.
  unfold forticare_register_units, body_data_of. simpl. split.
  - intros ->. done.
  - intros [token ->] ->. done.
Qed.

Lemma missing_parameter_raises_witness :
  forticare_register_units (always Timeout) (delete "token" sample_data) [] =
    (Raise (KeyError "token"), []) ∧
  forticare_register_units (always Timeout)
    (delete "registration_units" sample_data) [] =
    (Raise (KeyError "registration_units"), []).
Proof.
  split.
  - apply (missing_parameter_raises (always Timeout) (delete "token" sample_data) []).
    reflexivity.
  - apply (missing_parameter_raises (always Timeout)
             (delete "registration_units" sample_data) []).
    + eexists. reflexivity.
    + reflexivity.
Defined.

(** X3: the first unit that is not a dictionary with a [serial_number]
    aborts the call with its exception, after any number of good units
    and before any request is sent. *)
Theorem first_bad_unit_raises requests_post (data : gmap string pyval) sent
    good bad rest e :
  is_Some (data !! "token") →
  data !! "registration_units" = Some (PList (good ++ bad :: rest)) →
  forallb wf_unit good = true →
  unit_data_of bad = Raise e →
  forticare_register_units requests_post data sent = (Raise e, sent).
Proof.
  intros [token Htok] Hru Hgood Hbad.
  unfold forticare_register_units, body_data_of. simpl.
  rewrite Htok. simpl. rewrite Hru. simpl.
  by rewrite (registration_units_loop_raises good bad rest e [] Hgood Hbad).
Qed.

Lemma first_bad_unit_raises_witness :
  forticare_register_units (always (Received registered)) bad_unit_data [] =
    (Raise (KeyError "serial_number"), []).
Proof.
  apply (first_bad_unit_raises (always (Received registered)) bad_unit_data []
           [PDict sample_unit] (PDict {[ "description" := PStr "spare" ]}) []
           (KeyError "serial_number")).
  - eexists. reflexivity.
  - reflexivity.
  - reflexivity.
  - reflexivity.
Defined.

(** What raises in one unit: a value that is not a dictionary raises
    [TypeError], a dictionary without [serial_number] raises [KeyError],
    and nothing else raises. *)
Lemma unit_data_of_raises unit e :
  unit_data_of unit = Raise e ↔
  (e = TypeError ∧ ∀ u, unit ≠ PDict u) ∨
  (e = KeyError "serial_number" ∧ ∃ u, unit = PDict u ∧ u !! "serial_number" = None).
Proof.
  split.
  - destruct unit as [| | | | | |u]; simpl;
      try (intros [= <-]; left; split; [done|discriminate]).
    destruct (u !! "serial_number") eqn:Hu; [discriminate|].
    intros [= <-]. right. eauto.
  - intros [[-> Hnd]|(-> & u & -> & Hu)].
    + destruct unit as [| | | | | |u]; try done. by destruct (Hnd u).
    + simpl. by rewrite Hu.
Qed.

Lemma unit_data_of_raises_witness :
  unit_data_of (PStr "FMG-3K3407400133") = Raise TypeError.
Proof.
  apply (unit_data_of_raises (PStr "FMG-3K3407400133") TypeError).
  left. split; [reflexivity|discriminate].
Defined.

Lemma dom_unit_data_of unit unit_data :
  unit_data_of unit = Ret unit_data →
  "Serial_Number" ∈ dom unit_data ∧ dom unit_data ⊆ unit_keys.
Proof.
  destruct unit as [| | | | | |u]; simpl; try discriminate.
  destruct (u !! "serial_number") as [sn|]; [|discriminate].
  intros [= <-]. split.
  - repeat (apply dom_set_if_truthy_mono). rewrite dom_singleton_L. set_solver.
  - repeat (etrans; [apply dom_set_if_truthy|]; apply union_least;
            [unfold unit_keys; set_solver|]).
    rewrite dom_singleton_L. unfold unit_keys. set_solver.
Qed.

(** X4: a built payload has the keys [Token] and [RegistrationUnits] and
    at most [Version] besides; every entry under [RegistrationUnits] is a
    dictionary that has [Serial_Number] and no key outside the seven wire
    names.  No other key of the input reaches the wire. *)
Theorem payload_keys (data body_data : gmap string pyval) :
  body_data_of data = Ret body_data →
  {[ "Token"; "RegistrationUnits" ]} ⊆ dom body_data ∧
  dom body_data ⊆ body_keys ∧
  ∀ entry, entry ∈ RegistrationUnits_of body_data →
    ∃ unit_data, entry = PDict unit_data ∧
      "Serial_Number" ∈ dom unit_data ∧ dom unit_data ⊆ unit_keys.
Proof.
  intros (token & ru & units & entries & _ & _ & _ & Hall & ->)%body_data_of_inv.
  split_and!.
  - rewrite !dom_insert_L.
    pose proof (dom_set_if_truthy_mono data "version" "Version" {[ "Token" := token ]}) as H.
    rewrite dom_singleton_L in H. set_solver.
  - rewrite !dom_insert_L.
    pose proof (dom_set_if_truthy data "version" "Version" {[ "Token" := token ]}) as H.
    rewrite dom_singleton_L in H. unfold body_keys. set_solver.
  - unfold RegistrationUnits_of. rewrite lookup_insert_eq.
    intros entry (unit_data & -> & Hin)%list_elem_of_fmap.
    exists unit_data. split; [done|].
    apply list_elem_of_lookup in Hin as [i Hi].
    destruct (Forall2_lookup_r _ _ _ _ _ Hall Hi) as (unit & _ & Hu).
    by eapply dom_unit_data_of.
Qed.

Lemma payload_keys_witness :
  body_data_of sample_data = Ret sample_body ∧ dom sample_body ⊆ body_keys.
Proof.
  split; [vm_compute; reflexivity|].
  apply (payload_keys sample_data sample_body). vm_compute. reflexivity.
Defined.

(** X5: an empty list of units is not an error and is not short-cut: the
    payload holds an empty [RegistrationUnits] list, the one request is
    sent with it, and the outcome is the one of that request. *)
Theorem no_units_still_posts requests_post (data : gmap string pyval) sent token :
  data !! "token" = Some token →
  data !! "registration_units" = Some (PList []) →
  ∃ body_data,
    body_data_of data = Ret body_data ∧
    body_data !! "RegistrationUnits" = Some (PList []) ∧
    forticare_register_units requests_post data sent =
      (post_outcome_result (requests_post (length sent) (post_of body_data)),
       (sent ++ [post_of body_data])%list).
Proof.
  intros Htok Hru.
  assert (Hbody : ∃ body_data, body_data_of data = Ret body_data ∧
                    body_data !! "RegistrationUnits" = Some (PList [])).
  { unfold body_data_of. simpl. rewrite Htok. simpl. rewrite Hru. simpl.
    eexists. split; [done|]. by rewrite lookup_insert_eq. }
  destruct Hbody as (body_data & Hbody & HRU). exists body_data.
  split_and!; try done. by apply forticare_register_units_post.
Qed.

Lemma no_units_still_posts_witness :
  ∃ body_data,
    body_data_of no_units_data = Ret body_data ∧
    body_data !! "RegistrationUnits" = Some (PList []) ∧
    forticare_register_units (always Timeout) no_units_data [] =
      (post_outcome_result (always Timeout 0%nat (post_of body_data)),
       [post_of body_data]).
Proof.
  apply (no_units_still_posts (always Timeout) no_units_data [] (PStr "YOUR_TOKEN"));
    reflexivity.
Defined.

(** X6: the payload depends on the declared parameters only: two
    parameter dictionaries that agree on every name of [fields] give the
    same payload, or the same exception. *)
Theorem payload_reads_declared_parameters (data data' : gmap string pyval) :
  (∀ name, name ∈ dom fields → data !! name = data' !! name) →
  body_data_of data = body_data_of data'.
Proof.
  intros Hagree.
  assert (Hin : ∀ name, is_Some (fields !! name) → data !! name = data' !! name).
  { intros name Hn. apply Hagree. by apply elem_of_dom. }
  unfold body_data_of, set_if_truthy. simpl.
  rewrite <- (Hin "token"), <- (Hin "version"), <- (Hin "registration_units");
    [done|by eexists..].
Qed.

Lemma payload_reads_declared_parameters_witness :
  body_data_of (<[ "state" := PStr "present" ]> sample_data) =
  body_data_of sample_data.
Proof.
  apply (payload_reads_declared_parameters
           (<[ "state" := PStr "present" ]> sample_data) sample_data).
  intros name Hname. apply lookup_insert_ne. intros <-.
  apply elem_of_dom in Hname as [spec Hspec]. vm_compute in Hspec. discriminate.
Defined.

(** X7: a payload entry depends on the declared sub-options only: two
    unit dictionaries that agree on every name of the [options] of
    [registration_units] give the same entry, or the same exception. *)
Theorem unit_reads_declared_options (u u' : gmap string pyval) :
  (∀ name, name ∈ dom registration_units_options → u !! name = u' !! name) →
  unit_data_of (PDict u) = unit_data_of (PDict u').
Proof.
  intros Hagree.
  assert (Hin : ∀ name, is_Some (registration_units_options !! name) →
                        u !! name = u' !! name).
  { intros name Hn. apply Hagree. by apply elem_of_dom. }
  unfold unit_data_of, set_if_truthy.
  rewrite <- (Hin "serial_number"), <- (Hin "contract_number"),
    <- (Hin "description"), <- (Hin "asset_group_ids"),
    <- (Hin "replaced_serial_number"), <- (Hin "additional_info"),
    <- (Hin "is_government"); [done|by eexists..].
Qed.

Lemma unit_reads_declared_options_witness :
  unit_data_of (PDict (<[ "location" := PStr "lab" ]> sample_unit)) =
  unit_data_of (PDict sample_unit).
Proof.
  apply (unit_reads_declared_options
           (<[ "location" := PStr "lab" ]> sample_unit) sample_unit).
  intros name Hname. apply lookup_insert_ne. intros <-.
  apply elem_of_dom in Hname as [spec Hspec]. vm_compute in Hspec. discriminate.
Defined.

(** Which names an argument specification declares. *)
Lemma fields_lookup name spec :
  fields !! name = Some spec →
  (name = "token" ∧ fields !! "token" = Some spec) ∨
  (name = "version" ∧ fields !! "version" = Some spec) ∨
  (name = "registration_units" ∧ fields !! "registration_units" = Some spec).
Proof.
  intros H.
  destruct (decide (name = "token")) as [->|?]; [by left|].
  destruct (decide (name = "version")) as [->|?]; [by right; left|].
  destruct (decide (name = "registration_units")) as [->|?]; [by right; right|].
  unfold fields in H. rewrite !lookup_insert_ne in H by done.
  rewrite lookup_singleton_ne in H by done. discriminate.
Qed.

Lemma registration_units_options_lookup name spec :
  registration_units_options !! name = Some spec →
  name = "serial_number" ∨
  (name ≠ "serial_number" ∧ ∃ spec',
     spec = PDict spec' ∧ spec' !! "required" = Some (PBool false)).
Proof.
  intros H.
  destruct (decide (name = "serial_number")) as [->|Hsn]; [by left|].
  right. split; [done|].
  unfold registration_units_options in H.
  rewrite lookup_insert_ne in H by done.
  repeat (rewrite lookup_insert in H; case_decide;
          [injection H as <-; eexists; split; [done|reflexivity]|]).
  rewrite lookup_singleton in H. case_decide; [|discriminate].
  injection H as <-. eexists. split; [done|reflexivity].
Qed.

(** X8: [fields] and the function agree on what is required.  A
    parameter declared [required: True] raises [KeyError] when it is
    missing; a parameter declared [required: False] can be removed from
    any parameters that give a payload, and a payload is still built. *)
Theorem required_parameters name spec :
  fields !! name = Some (PDict spec) →
  (spec !! "required" = Some (PBool true) →
   ∀ data : gmap string pyval, data !! name = None →
     ∃ key, body_data_of data = Raise (KeyError key)) ∧
  (spec !! "required" = Some (PBool false) →
   ∀ data body_data, body_data_of data = Ret body_data →
     ∃ body_data', body_data_of (delete name data) = Ret body_data').
Proof.
  intros [(-> & H)|[(-> & H)|(-> & H)]]%fields_lookup;
    vm_compute in H; injection H as <-; split; intros Hreq;
    try (vm_compute in Hreq; discriminate).
  - intros data Hnone. exists "token". unfold body_data_of. simpl. by rewrite Hnone.
  - intros data body_data
      (token & ru & units & entries & Htok & Hru & Hit & Hall & _)%body_data_of_inv.
    unfold body_data_of. simpl.
    rewrite !lookup_delete_ne by done. rewrite Htok. simpl. rewrite Hru. simpl.
    rewrite Hit. simpl.
    destruct (registration_units_loop_total units []
                (Forall2_unit_data_of_wf _ _ Hall)) as [l ->].
    simpl. eauto.
  - intros data Hnone. unfold body_data_of. simpl.
    destruct (data !! "token"); simpl; [|eauto]. rewrite Hnone. simpl. eauto.
Qed.

Lemma required_parameters_witness :
  ∃ body_data', body_data_of (delete "version" sample_data) = Ret body_data'.
Proof.
  destruct (required_parameters "version"
              {[ "required" := PBool false; "type" := PStr "str" ]})
    as [_ Hopt]; [reflexivity|].
  apply (Hopt eq_refl sample_data sample_body). vm_compute. reflexivity.
Defined.

(** X9: the [options] of [registration_units] and the loop body agree on
    what is required.  A sub-option declared [required: True] raises
    [KeyError] for its name when the unit lacks it; a sub-option declared
    [required: False] can be removed from any unit that gives an entry,
    and an entry is still built. *)
Theorem required_options name spec :
  registration_units_options !! name = Some (PDict spec) →
  (spec !! "required" = Some (PBool true) →
   ∀ u : gmap string pyval, u !! name = None →
     unit_data_of (PDict u) = Raise (KeyError name)) ∧
  (spec !! "required" = Some (PBool false) →
   ∀ (u : gmap string pyval) unit_data, unit_data_of (PDict u) = Ret unit_data →
     ∃ unit_data', unit_data_of (PDict (delete name u)) = Ret unit_data').
Proof.
  intros H. pose proof (registration_units_options_lookup _ _ H) as Hname.
  split; intros Hreq.
  - destruct Hname as [->|(_ & spec' & [= <-] & Hfalse)]; [|congruence].
    intros u Hnone. simpl. by rewrite Hnone.
  - destruct Hname as [->|(Hne & _)].
    { vm_compute in H. injection H as <-. vm_compute in Hreq. discriminate. }
    intros u unit_data. simpl. rewrite lookup_delete_ne by done.
    destruct (u !! "serial_number"); [eauto|discriminate].
Qed.

Lemma required_options_witness :
  unit_data_of (PDict {[ "description" := PStr "spare" ]}) =
  Raise (KeyError "serial_number").
Proof.
  destruct (required_options "serial_number"
              {[ "required" := PBool true; "type" := PStr "str" ]})
    as [Hreq _]; [reflexivity|].
  apply (Hreq eq_refl). reflexivity.
Defined.

(** ** Further properties of the outcome *)

(** X10: a run sends at most one request and keeps the log it was given:
    nothing is sent when the payload raises, and otherwise exactly the
    one POST of the payload, to the fixed URL, with a timeout of 10 and
    with certificate verification on. *)
Theorem one_request_at_most requests_post (data : gmap string pyval) sent :
  ∃ new,
    (forticare_register_units requests_post data sent).2 = (sent ++ new)%list ∧
    ((new = [] ∧ ∃ e, body_data_of data = Raise e ∧
        (forticare_register_units requests_post data sent).1 = Raise e) ∨
     (∃ body_data, body_data_of data = Ret body_data ∧ new = [post_of body_data])) ∧
    ∀ req, req ∈ new →
      url req = REST_RegisterUnits ∧ timeout req = 10 ∧ verify req = true.
Proof.
  unfold forticare_register_units.
  destruct (body_data_of data) as [body_data|e].
  - exists [post_of body_data]. split_and!; [done|right; eauto|].
    by intros req ->%list_elem_of_singleton.
  - exists []. split_and!; [by rewrite app_nil_r|left; eauto|].
    by intros req ?%elem_of_nil.
Qed.

Lemma one_request_at_most_witness :
  ∃ new,
    (forticare_register_units (always Timeout) sample_data []).2 = ([] ++ new)%list ∧
    ((new = [] ∧ ∃ e, body_data_of sample_data = Raise e ∧
        (forticare_register_units (always Timeout) sample_data []).1 = Raise e) ∨
     (∃ body_data, body_data_of sample_data = Ret body_data ∧
        new = [post_of body_data])) ∧
    ∀ req, req ∈ new →
      url req = REST_RegisterUnits ∧ timeout req = 10 ∧ verify req = true.
Proof. exact (one_request_at_most (always Timeout) sample_data []). Defined.

(** When a run reports success. *)
Lemma forticare_register_units_success requests_post (data : gmap string pyval) sent changed result sent' :
  forticare_register_units requests_post data sent =
    (Ret (false, changed, result), sent') ↔
  ∃ body_data r d status,
    body_data_of data = Ret body_data ∧
    requests_post (length sent) (post_of body_data) = Received r ∧
    status_code r = 200 ∧
    loads_content r = Ret (PDict d) ∧
    d !! "Status" = Some status ∧ ne_zero status = false ∧
    changed = true ∧
    result = {[ "status_code" := PInt 200; "reason" := PStr (reason r);
                "content" := PDict d ]} ∧
    sent' = (sent ++ [post_of body_data])%list.
Proof.
  split.
  - intros Hrun. unfold forticare_register_units in Hrun.
    destruct (body_data_of data) as [body_data|] eqn:Hbody; [|discriminate].
    injection Hrun as Hres <-.
    pose proof (post_outcome_result_changed _ _ _ _ Hres) as ->. simpl in Hres.
    destruct (requests_post (length sent) (post_of body_data)) as [| |r] eqn:Hpost;
      simpl in Hres; try discriminate.
    apply response_outcome_success in Hres
      as (Hs & d & status & Hl & Hst & Hz & ->).
    exists body_data, r, d, status. by split_and!.
  - intros (body_data & r & d & status & Hbody & Hpost & Hs & Hl & Hst & Hz
            & -> & -> & ->).
    rewrite (forticare_register_units_post _ _ _ _ Hbody), Hpost. simpl.
    f_equal. apply response_outcome_success. eauto 10.
Qed.

(** X11: the function reports success exactly when the payload is built,
    the POST is answered with status 200, and the body parses to a
    dictionary whose [Status] compares equal to 0; the result then holds
    the status code, the reason phrase and the parsed body. *)
Theorem success_iff requests_post (data : gmap string pyval) sent changed result sent' :
  forticare_register_units requests_post data sent =
    (Ret (false, changed, result), sent') ↔
  ∃ body_data r d status,
    body_data_of data = Ret body_data ∧
    requests_post (length sent) (post_of body_data) = Received r ∧
    status_code r = 200 ∧
    loads_content r = Ret (PDict d) ∧
    d !! "Status" = Some status ∧ ne_zero status = false ∧
    changed = true ∧
    result = {[ "status_code" := PInt 200; "reason" := PStr (reason r);
                "content" := PDict d ]} ∧
    sent' = (sent ++ [post_of body_data])%list.
Proof. apply forticare_register_units_success. Qed.

Lemma success_iff_witness :
  forticare_register_units (always (Received registered)) sample_data [] =
    (Ret (false, true,
          {[ "status_code" := PInt 200; "reason" := PStr (reason registered);
             "content" :=
               PDict {[ "Status" := PInt 0; "Message" := PStr "Success" ]} ]}),
     ([] ++ [post_of sample_body])%list).
Proof.
  apply (success_iff (always (Received registered)) sample_data [] true).
  exists sample_body, registered,
    {[ "Status" := PInt 0; "Message" := PStr "Success" ]}, (PInt 0).
  split_and!; vm_compute; reflexivity.
Defined.

(** X12: the function raises exactly when the payload raises, with
    nothing sent, or when a response with a status outside 400-599 is
    received and either [json.loads] raises on its body or the status is
    200 and [content['Status']] raises on the truthy parsed body. *)
Theorem raises_iff requests_post (data : gmap string pyval) sent e sent' :
  forticare_register_units requests_post data sent = (Raise e, sent') ↔
  (body_data_of data = Raise e ∧ sent' = sent) ∨
  (∃ body_data r,
     body_data_of data = Ret body_data ∧
     requests_post (length sent) (post_of body_data) = Received r ∧
     sent' = (sent ++ [post_of body_data])%list ∧
     ok r = true ∧
     (loads_content r = Raise e ∨
      ∃ v, loads_content r = Ret v ∧ truthy v = true ∧ status_code r = 200 ∧
           getitem v "Status" = Raise e)).
Proof.
  unfold forticare_register_units. split.
  - destruct (body_data_of data) as [body_data|e'] eqn:Hbody.
    + intros [= Hres <-]. right.
      destruct (requests_post (length sent) (post_of body_data)) as [| |r] eqn:Hpost;
        simpl in Hres; try discriminate.
      apply response_outcome_raises in Hres as [Hok Hwhy].
      exists body_data, r. by split_and!.
    + intros [= <- <-]. by left.
  - intros [[-> ->]|(body_data & r & -> & Hpost & -> & Hok & Hwhy)]; [done|].
    rewrite Hpost. simpl. f_equal. apply response_outcome_raises. by split.
Qed.

Lemma raises_iff_witness :
  forticare_register_units
    (always (Received {| status_code := 200; reason := "OK";
                         loads_content := Ret (PList [PInt 1]) |}))
    sample_data [] =
    (Raise TypeError, ([] ++ [post_of sample_body])%list).
Proof.
  apply (raises_iff
           (always (Received {| status_code := 200; reason := "OK";
                                loads_content := Ret (PList [PInt 1]) |}))
           sample_data [] TypeError).
  right. eexists sample_body, _. split_and!; try (vm_compute; reflexivity).
  right. exists (PList [PInt 1]). split_and!; vm_compute; reflexivity.
Defined.

Lemma ok_false_iff r : ok r = false ↔ 400 ≤ status_code r < 600.
Proof.
  unfold ok. rewrite negb_false_iff, andb_true_iff, Z.leb_le, Z.ltb_lt. done.
Qed.

(** X13: a response with any status from 400 to 599 yields the error
    outcome with [status_code], [reason] and [content] all [None]: the
    body is not parsed, and neither the status code nor the reason phrase
    of the server reaches the result. *)
Theorem http_error_status_outcome requests_post (data : gmap string pyval)
    sent body_data r :
  body_data_of data = Ret body_data →
  requests_post (length sent) (post_of body_data) = Received r →
  400 ≤ status_code r < 600 →
  forticare_register_units requests_post data sent =
    (Ret (true, false,
          {[ "status_code" := PNone; "reason" := PNone; "content" := PNone ]}),
     (sent ++ [post_of body_data])%list).
Proof.
  intros Hbody Hpost Hs%ok_false_iff.
  rewrite (forticare_register_units_post _ _ _ _ Hbody), Hpost. simpl.
  unfold response_outcome. rewrite Hs. reflexivity.
Qed.

Lemma http_error_status_outcome_witness :
  forticare_register_units (always (Received not_found)) sample_data [] =
    (Ret (true, false,
          {[ "status_code" := PNone; "reason" := PNone; "content" := PNone ]}),
     ([] ++ [post_of sample_body])%list).
Proof.
  apply (http_error_status_outcome (always (Received not_found)) sample_data []
           sample_body not_found);
    [vm_compute; reflexivity | reflexivity | simpl; lia].
Defined.

(** X14: a response with a status other than 200 and outside 400-599
    whose body parses yields the error outcome, whatever the body says,
    and the result holds the status code, the reason phrase and the parsed
    body as they came. *)
Theorem other_status_outcome requests_post (data : gmap string pyval)
    sent body_data r v :
  body_data_of data = Ret body_data →
  requests_post (length sent) (post_of body_data) = Received r →
  status_code r ≠ 200 →
  ¬ 400 ≤ status_code r < 600 →
  loads_content r = Ret v →
  forticare_register_units requests_post data sent =
    (Ret (true, false,
          {[ "status_code" := PInt (status_code r); "reason" := PStr (reason r);
             "content" := v ]}),
     (sent ++ [post_of body_data])%list).
Proof.
  intros Hbody Hpost Hne Hok Hv.
  rewrite (forticare_register_units_post _ _ _ _ Hbody), Hpost. simpl.
  assert (Hok' : ok r = true).
  { destruct (ok r) eqn:E; [done|]. by apply ok_false_iff in E. }
  apply Z.eqb_neq in Hne.
  unfold response_outcome. rewrite Hok', Hv. simpl. rewrite Hne. simpl.
  by destruct (truthy v).
Qed.

Lemma other_status_outcome_witness :
  forticare_register_units (always (Received accepted)) sample_data [] =
    (Ret (true, false,
          {[ "status_code" := PInt (status_code accepted);
             "reason" := PStr (reason accepted);
             "content" := PDict {[ "Status" := PInt 0 ]} ]}),
     ([] ++ [post_of sample_body])%list).
Proof.
  apply (other_status_outcome (always (Received accepted)) sample_data []
           sample_body accepted (PDict {[ "Status" := PInt 0 ]}));
    [vm_compute; reflexivity | reflexivity | discriminate | simpl; lia | reflexivity].
Defined.

(** X15: a response with status 200 whose body parses to a dictionary
    with a [Status] that differs from 0 yields the error outcome, and the
    result holds the status code, the reason phrase and the parsed body
    as they came. *)
Theorem rejected_outcome requests_post (data : gmap string pyval)
    sent body_data r d status :
  body_data_of data = Ret body_data →
  requests_post (length sent) (post_of body_data) = Received r →
  status_code r = 200 →
  loads_content r = Ret (PDict d) →
  d !! "Status" = Some status →
  ne_zero status = true →
  forticare_register_units requests_post data sent =
    (Ret (true, false,
          {[ "status_code" := PInt 200; "reason" := PStr (reason r);
             "content" := PDict d ]}),
     (sent ++ [post_of body_data])%list).
Proof.
  intros Hbody Hpost Hs Hl Hst Hz.
  rewrite (forticare_register_units_post _ _ _ _ Hbody), Hpost. simpl.
  unfold response_outcome. rewrite (ok_200 r Hs), Hl, Hs. simpl.
  destruct (map_to_list d) eqn:Hd.
  { apply map_to_list_empty_iff in Hd. subst d. by rewrite lookup_empty in Hst. }
  rewrite Hst. simpl. by rewrite Hz.
Qed.

Lemma rejected_outcome_witness :
  forticare_register_units (always (Received already_registered)) sample_data [] =
    (Ret (true, false,
          {[ "status_code" := PInt 200; "reason" := PStr (reason already_registered);
             "content" :=
               PDict {[ "Status" := PInt 1; "Error" := PStr "Already Registered" ]} ]}),
     ([] ++ [post_of sample_body])%list).
Proof.
  apply (rejected_outcome (always (Received already_registered)) sample_data []
           sample_body already_registered
           {[ "Status" := PInt 1; "Error" := PStr "Already Registered" ]} (PInt 1));
    vm_compute; reflexivity.
Defined.

Lemma dom_result (a b c : pyval) :
  dom ({[ "status_code" := a; "reason" := b; "content" := c ]} : gmap string pyval)
  = result_keys.
Proof. rewrite !dom_insert_L, dom_singleton_L. unfold result_keys. set_solver. Qed.

(** X16: every result the function returns has exactly the three keys
    [status_code], [reason] and [content]. *)
Theorem result_has_three_keys requests_post (data : gmap string pyval)
    sent is_error changed result sent' :
  forticare_register_units requests_post data sent =
    (Ret (is_error, changed, result), sent') →
  dom result = result_keys.
Proof.
  unfold forticare_register_units.
  destruct (body_data_of data) as [body_data|]; [|discriminate].
  intros [= Hres _].
  destruct (requests_post (length sent) (post_of body_data)) as [| |r];
    simpl in Hres.
  - injection Hres as _ _ <-. apply dom_result.
  - injection Hres as _ _ <-. apply dom_result.
  - unfold response_outcome in Hres.
    destruct (if ok r && in_dir "content" r then loads_content r else Ret PNone)
      as [content|]; simpl in Hres; [|discriminate].
    destruct (if truthy content
              then if negb (status_code r =? 200) then Ret true
                   else getitem content "Status" ≫= λ status, Ret (ne_zero status)
              else Ret true) as [success|]; simpl in Hres; [|discriminate].
    injection Hres as _ _ <-. apply dom_result.
Qed.

Lemma result_has_three_keys_witness :
  dom ({[ "status_code" := PNone;
          "reason" := PStr "Timeout contacting FortiCare server";
          "content" := PNone ]} : gmap string pyval) = result_keys.
Proof.
  eapply (result_has_three_keys (always Timeout) sample_data [] true false).
  vm_compute. reflexivity.
Defined.

(** ** Properties of the entry point *)

(** X17: [main] ends with [exit_json] exactly when the payload is built,
    the POST is answered with status 200 and the body parses to a
    dictionary whose [Status] compares equal to 0; it then always reports
    [changed = True], with the function's result as [meta]. *)
Theorem main_exit_json_iff requests_post (params : gmap string pyval)
    sent changed meta sent' :
  main requests_post params sent = (Ret (exit_json changed meta), sent') ↔
  ∃ body_data r d status,
    body_data_of params = Ret body_data ∧
    requests_post (length sent) (post_of body_data) = Received r ∧
    status_code r = 200 ∧
    loads_content r = Ret (PDict d) ∧
    d !! "Status" = Some status ∧ ne_zero status = false ∧
    changed = true ∧
    meta = {[ "status_code" := PInt 200; "reason" := PStr (reason r);
              "content" := PDict d ]} ∧
    sent' = (sent ++ [post_of body_data])%list.
Proof.
  rewrite <- forticare_register_units_success. unfold main.
  destruct (forticare_register_units requests_post params sent)
    as [[[[is_error has_changed] result]|e] sent''].
  - destruct is_error; simpl; split; try discriminate.
    + by intros [= <- <- <-].
    + by intros [= <- <- <-].
  - split; discriminate.
Qed.

Lemma main_exit_json_iff_witness :
  main (always (Received registered)) sample_data [] =
    (Ret (exit_json true
            {[ "status_code" := PInt 200; "reason" := PStr (reason registered);
               "content" :=
                 PDict {[ "Status" := PInt 0; "Message" := PStr "Success" ]} ]}),
     ([] ++ [post_of sample_body])%list).
Proof.
  apply (main_exit_json_iff (always (Received registered)) sample_data [] true).
  exists sample_body, registered,
    {[ "Status" := PInt 0; "Message" := PStr "Success" ]}, (PInt 0).
  split_and!; vm_compute; reflexivity.
Defined.

(** X18: [main] ends with [fail_json] exactly when the function returns
    an error outcome; the message is then always ['Error in repo'], and
    [meta] is the function's result. *)
Theorem main_fail_json_iff requests_post (params : gmap string pyval)
    sent msg meta sent' :
  main requests_post params sent = (Ret (fail_json msg meta), sent') ↔
  msg = "Error in repo" ∧
  forticare_register_units requests_post params sent =
    (Ret (true, false, meta), sent').
Proof.
  unfold main.
  destruct (forticare_register_units requests_post params sent)
    as [[[[is_error has_changed] result]|e] sent''] eqn:Hrun.
  - assert (has_changed = negb is_error) as ->.
    { unfold forticare_register_units in Hrun.
      destruct (body_data_of params); [|discriminate].
      injection Hrun as Hres _. by eapply post_outcome_result_changed. }
    destruct is_error; simpl; split; try discriminate.
    + by intros [= <- <- <-].
    + by intros [-> [= <- <-]].
    + by intros [_ [=]].
  - split; [discriminate|]. by intros [_ [=]].
Qed.

Lemma main_fail_json_iff_witness :
  main (always Timeout) sample_data [] =
    (Ret (fail_json "Error in repo"
            {[ "status_code" := PNone;
               "reason" := PStr "Timeout contacting FortiCare server";
               "content" := PNone ]}),
     [post_of sample_body]).
Proof.
  apply (main_fail_json_iff (always Timeout) sample_data [] "Error in repo").
  split; [reflexivity | vm_compute; reflexivity].
Defined.

(** X19: when no usable response comes back, on a timeout, on another
    exception of the POST, or on a status from 400 to 599, [main] ends
    with [fail_json] and a [meta] whose [status_code] is [None]. *)
Theorem main_fails_without_status requests_post (params : gmap string pyval)
    sent body_data :
  body_data_of params = Ret body_data →
  (requests_post (length sent) (post_of body_data) = Timeout ∨
   (∃ tb format_exc,
      requests_post (length sent) (post_of body_data) = Failure tb format_exc) ∨
   (∃ r, requests_post (length sent) (post_of body_data) = Received r ∧
         400 ≤ status_code r < 600)) →
  ∃ meta,
    main requests_post params sent =
      (Ret (fail_json "Error in repo" meta), (sent ++ [post_of body_data])%list) ∧
    meta !! "status_code" = Some PNone.
Proof.
  intros Hbody Hpost. unfold main.
  rewrite (forticare_register_units_post _ _ _ _ Hbody).
  destruct Hpost as [->|[(tb & format_exc & ->)|(r & -> & Hs%ok_false_iff)]]; simpl.
  - eexists. split; [done|]. reflexivity.
  - eexists. split; [done|]. reflexivity.
  - unfold response_outcome. rewrite Hs. simpl. eexists. split; [done|]. reflexivity.
Qed.

Lemma main_fails_without_status_witness :
  ∃ meta,
    main (always (Received not_found)) sample_data [] =
      (Ret (fail_json "Error in repo" meta), ([] ++ [post_of sample_body])%list) ∧
    meta !! "status_code" = Some PNone.
Proof.
  apply (main_fails_without_status (always (Received not_found)) sample_data []
           sample_body); [vm_compute; reflexivity|].
  right. right. exists not_found. split; [reflexivity | simpl; lia].
Defined.
